(** * Asset shelf asset view

    A shallow embedding of
    [source/blender/editors/asset/intern/asset_shelf_asset_view.cc]:
    the grid view listing the assets of a library inside the asset shelf,
    its items, and the drag controller of an item.

    Pointers that the code tests or that the host may leave null are
    options; dereferencing one that is [None] is the outcome [NullDeref].
    Bit flags are integers tested with [Z.land].  Declarations that live
    in other files of the code base (flag masks, the default import
    method) are variables of the section. *)

From Stdlib Require Import ZArith List String Bool Lia.
Import ListNotations.
Open Scope string_scope.
Open Scope list_scope.
Open Scope Z_scope.

(** ** Outcomes *)

(** The places where this file reads through a pointer it did not test. *)
Inductive null_site : Type :=
| space_link_null        (* space_link->spacetype *)
| space_type_null        (* *space_type *)
| shelf_settings_null    (* *shelf_settings *)
| draw_context_menu_null (* shelf->draw_context_menu(...) *).

Inductive outcome (A : Type) : Type :=
| Done (a : A)
| NullDeref (site : null_site).

Arguments Done {A} a.
Arguments NullDeref {A} site.

Definition bind {A B : Type} (m : outcome A) (k : A -> outcome B) : outcome B :=
  match m with
  | Done a => k a
  | NullDeref site => NullDeref site
  end.

Notation "x <- m ;; k" := (bind m (fun x => k))
  (at level 61, m at next level, right associativity).

(** [deref site p] is [*p]. *)
Definition deref {A : Type} (site : null_site) (p : option A) : outcome A :=
  match p with
  | Some a => Done a
  | None => NullDeref site
  end.

(** ** Host data *)

Definition CatalogID := Z.

(** A C [float], kept as its 32-bit pattern: this file only passes the
    tile sizes on and computes nothing with them. *)
Definition float := Z.

Record AssetMetaData : Type := {
  catalog_id : CatalogID
}.

(** A local data-block, identified by its name. *)
Record ID : Type := {
  id_name : string
}.

(** An asset handle, as seen through the [ED_asset_handle_get_*] accessors. *)
Record AssetHandle : Type := {
  handle_metadata : AssetMetaData;
  handle_relative_path : string;
  handle_name : string;
  handle_preview_icon_id : Z;
  handle_local_id : option ID;
  handle_full_library_path : string;
  handle_import_method : option Z
}.

Definition ED_asset_handle_get_metadata (asset : AssetHandle) : AssetMetaData :=
  handle_metadata asset.
Definition ED_asset_handle_get_relative_path (asset : AssetHandle) : string :=
  handle_relative_path asset.
Definition ED_asset_handle_get_name (asset : AssetHandle) : string :=
  handle_name asset.
Definition ED_asset_handle_get_preview_icon_id (asset : AssetHandle) : Z :=
  handle_preview_icon_id asset.
Definition ED_asset_handle_get_local_id (asset : AssetHandle) : option ID :=
  handle_local_id asset.
Definition ED_asset_handle_get_full_library_path (asset : AssetHandle) : string :=
  handle_full_library_path asset.
Definition ED_asset_handle_get_import_method (asset : AssetHandle) : option Z :=
  handle_import_method asset.

Record AssetLibraryReference : Type := {
  ref_type : Z;
  custom_library_index : Z
}.

(** [asset_system::AssetCatalogFilter]: only [contains] is used here. *)
Record AssetCatalogFilter : Type := {
  contains : CatalogID -> bool
}.

Record AssetCatalog : Type := {
  catalog_catalog_id : CatalogID;
  catalog_path : string
}.

Record AssetCatalogService : Type := {
  find_catalog_by_path : string -> option AssetCatalog;
  create_catalog_filter : CatalogID -> AssetCatalogFilter
}.

Record AssetLibrary : Type := {
  catalog_service : AssetCatalogService
}.

Record AssetShelfSettings : Type := {
  active_catalog_path : option string;
  display_flag : Z
}.

Record SpaceLink : Type := {
  spacetype : Z
}.

(** The context.  Besides the active space, the state that the plugin
    callbacks may look at is kept as one integer. *)
Record bContext : Type := {
  wm_space_data : option SpaceLink;
  ctx_mode : Z
}.

Definition CTX_wm_space_data (C : bContext) : option SpaceLink := wm_space_data C.

(** ** The classes of this file *)

(** [AssetViewItem], with the members of [ui::PreviewGridItem] it sets. *)
Record AssetViewItem : Type := {
  identifier : string;
  label : string;
  preview_icon_id : Z;
  asset_ : AssetHandle;
  allow_asset_drag_ : bool
}.

(** [AssetView], with the members of [ui::AbstractGridView] it uses: the
    items added so far and the tile size ([None]: the default style). *)
Record AssetView : Type := {
  library_ref_ : AssetLibraryReference;
  shelf_settings_ : AssetShelfSettings;
  catalog_filter_ : option AssetCatalogFilter;
  evil_C_ : bContext;
  items_ : list AssetViewItem;
  tile_size_ : option (float * float)
}.

Record AssetDragController : Type := {
  drag_view_ : AssetView;
  drag_asset_ : AssetHandle
}.

Record uiBlock : Type := {
  views : list (string * AssetView)
}.

(** A layout: the block it draws into and what has been drawn, in order. *)
Record uiLayout : Type := {
  layout_block : uiBlock;
  layout_drawn : list string
}.

Definition uiLayoutGetBlock (layout : uiLayout) : uiBlock := layout_block layout.

(** A shelf type.  Each callback receives the shelf type itself; that
    argument is the record the field is read from and is left out. *)
Record AssetShelfType : Type := {
  idname : string;
  flag : Z;
  poll : option (bContext -> bool);
  asset_poll : option (AssetHandle -> bool);
  draw_context_menu : option (bContext -> AssetHandle -> uiLayout -> uiLayout)
}.

Record SpaceType : Type := {
  spaceid : Z;
  asset_shelf_types : list AssetShelfType
}.

Record View2D : Type := {
  v2d_flag : Z
}.

Record ARegion : Type := {
  v2d : View2D
}.

Inductive eWM_DragDataType : Type :=
| WM_DRAG_ID
| WM_DRAG_ASSET.

(** What [WM_drag_create_asset_data] allocates from its four arguments. *)
Record wmDragAsset : Type := {
  drag_asset : AssetHandle;
  drag_path : string;
  drag_import_method : Z;
  drag_evil_C : bContext
}.

(** The [void *] returned by [create_drag_data]. *)
Inductive drag_data : Type :=
| drag_local_id (id : ID)
| drag_asset_data (data : wmDragAsset).

(** Calls into the asset list storage. *)
Inductive assetlist_request : Type :=
| storage_fetch (library_ref : AssetLibraryReference) (C : bContext)
| ensure_previews_job (library_ref : AssetLibraryReference) (C : bContext).

(** The host services this file calls and whose code is elsewhere. *)
Record Host : Type := {
  ED_assetlist_library_get_once_available : AssetLibraryReference -> option AssetLibrary;
  (* the assets [ED_assetlist_iterate] visits, in order *)
  ED_assetlist_assets : AssetLibraryReference -> list AssetHandle;
  BKE_spacetype_from_id : Z -> option SpaceType;
  ED_asset_shelf_default_tile_width : float;
  ED_asset_shelf_default_tile_height : float;
  (* [ui::GridViewBuilder::build_grid_view] *)
  build_grid_view : AssetView -> View2D -> uiLayout -> outcome uiLayout
}.

(** [ED_assetlist_iterate]: calls [fn] on each asset until it answers
    [false]; [fn] works on the state [S] it captured by reference. *)
Fixpoint iterate {S : Type} (fn : AssetHandle -> S -> outcome (bool * S))
    (assets : list AssetHandle) (s : S) : outcome S :=
  match assets with
  | [] => Done s
  | asset :: rest =>
      r <- fn asset s ;;
      if fst r then iterate fn rest (snd r) else Done (snd r)
  end.

Definition ED_assetlist_iterate {S : Type} (h : Host) (library_ref : AssetLibraryReference)
    (fn : AssetHandle -> S -> outcome (bool * S)) (s : S) : outcome S :=
  iterate fn (ED_assetlist_assets h library_ref) s.

(** ** Shelf types showing an asset *)

(** The loop body of [asset_shelf_types_showing_asset]: is [shelf_type]
    appended? *)
Definition shelf_type_appended (C : bContext) (asset : AssetHandle)
    (shelf_type : AssetShelfType) : bool :=
  if (match poll shelf_type with
      | None => true                 (* !shelf_type->poll *)
      | Some p => negb (p C)         (* !shelf_type->poll(&C, shelf_type) *)
      end)
  then false                         (* continue *)
  else
    match asset_poll shelf_type with
    | None => true
    | Some ap => ap asset
    end.

Fixpoint showing_loop (C : bContext) (asset : AssetHandle)
    (shelf_types_in : list AssetShelfType) (shelf_types : list AssetShelfType)
    : list AssetShelfType :=
  match shelf_types_in with
  | [] => shelf_types
  | shelf_type :: rest =>
      if shelf_type_appended C asset shelf_type
      then showing_loop C asset rest (shelf_types ++ [shelf_type])
      else showing_loop C asset rest shelf_types
  end.

Definition asset_shelf_types_showing_asset (space_type : SpaceType) (C : bContext)
    (asset : AssetHandle) : list AssetShelfType :=
  showing_loop C asset (asset_shelf_types space_type) [].

Section AssetShelf.

(** Declared in headers outside this file. *)
Variable ASSET_SHELF_TYPE_NO_ASSET_DRAG : Z.
Variable ASSETSHELF_SHOW_NAMES : Z.
Variable ASSET_IMPORT_APPEND_REUSE : Z.

(** [flags & mask] used as a condition. *)
Definition flag_test (flags mask : Z) : bool := negb (Z.land flags mask =? 0).

Fixpoint shelves_is_any_no_asset_drag (shelves : list AssetShelfType) : bool :=
  match shelves with
  | [] => false
  | shelf_type :: rest =>
      if flag_test (flag shelf_type) ASSET_SHELF_TYPE_NO_ASSET_DRAG
      then true
      else shelves_is_any_no_asset_drag rest
  end.

(** ** AssetView *)

Definition AssetView_new (library_ref : AssetLibraryReference)
    (shelf_settings : AssetShelfSettings) (evil_C : bContext) : AssetView :=
  {| library_ref_ := library_ref;
     shelf_settings_ := shelf_settings;
     catalog_filter_ := None;
     evil_C_ := evil_C;
     items_ := [];
     tile_size_ := None |}.

Definition AssetViewItem_new (asset : AssetHandle) (identifier label : string)
    (preview_icon_id : Z) : AssetViewItem :=
  {| identifier := identifier;
     label := label;
     preview_icon_id := preview_icon_id;
     asset_ := asset;
     allow_asset_drag_ := true |}.

Definition disable_asset_drag (item : AssetViewItem) : AssetViewItem :=
  {| identifier := identifier item;
     label := label item;
     preview_icon_id := preview_icon_id item;
     asset_ := asset_ item;
     allow_asset_drag_ := false |}.

Definition set_items (view : AssetView) (items : list AssetViewItem) : AssetView :=
  {| library_ref_ := library_ref_ view;
     shelf_settings_ := shelf_settings_ view;
     catalog_filter_ := catalog_filter_ view;
     evil_C_ := evil_C_ view;
     items_ := items;
     tile_size_ := tile_size_ view |}.

(** [add_item<AssetViewItem>(...)] appends the item and returns a reference
    to it; [through] is what the caller then does through that reference. *)
Definition add_item (view : AssetView) (item : AssetViewItem)
    (through : AssetViewItem -> AssetViewItem) : AssetView :=
  set_items view (items_ view ++ [through item]).

Definition is_empty {A : Type} (l : list A) : bool :=
  match l with
  | [] => true
  | _ :: _ => false
  end.

(** [catalog_filter_ && !catalog_filter_->contains(asset_data->catalog_id)] *)
Definition skipped_by_catalog_filter (view : AssetView) (asset_data : AssetMetaData) : bool :=
  match catalog_filter_ view with
  | Some catalog_filter => negb (contains catalog_filter (catalog_id asset_data))
  | None => false
  end.

(** The function object given to [ED_assetlist_iterate] in [build_items].
    It captures the view and [space_type]; its result says whether the
    iteration goes on. *)
Definition build_items_fn (space_type : option SpaceType) (asset : AssetHandle)
    (view : AssetView) : outcome (bool * AssetView) :=
  st <- deref space_type_null space_type ;;
  let shelves_showing_asset := asset_shelf_types_showing_asset st (evil_C_ view) asset in
  if is_empty shelves_showing_asset then Done (true, view)
  else
    let asset_data := ED_asset_handle_get_metadata asset in
    if skipped_by_catalog_filter view asset_data then Done (true, view)
    else
      let show_names := flag_test (display_flag (shelf_settings_ view)) ASSETSHELF_SHOW_NAMES in
      let identifier := ED_asset_handle_get_relative_path asset in
      let name := if show_names then ED_asset_handle_get_name asset else "" in
      let preview_id := ED_asset_handle_get_preview_icon_id asset in
      let item := AssetViewItem_new asset identifier name preview_id in
      Done (true,
            add_item view item
              (fun item =>
                 if shelves_is_any_no_asset_drag shelves_showing_asset
                 then disable_asset_drag item
                 else item)).

Definition build_items (h : Host) (view : AssetView) : outcome AssetView :=
  match ED_assetlist_library_get_once_available h (library_ref_ view) with
  | None => Done view
  | Some _ =>
      space_link <- deref space_link_null (CTX_wm_space_data (evil_C_ view)) ;;
      let space_type := BKE_spacetype_from_id h (spacetype space_link) in
      ED_assetlist_iterate h (library_ref_ view) (build_items_fn space_type) view
  end.

Definition set_catalog_filter (view : AssetView)
    (catalog_filter : option AssetCatalogFilter) : AssetView :=
  {| library_ref_ := library_ref_ view;
     shelf_settings_ := shelf_settings_ view;
     catalog_filter_ :=
       match catalog_filter with
       | Some f => Some f      (* catalog_filter_.emplace of the given value *)
       | None => None          (* catalog_filter_ = std::nullopt *)
       end;
     evil_C_ := evil_C_ view;
     items_ := items_ view;
     tile_size_ := tile_size_ view |}.

Definition set_tile_size (view : AssetView) (tile_width tile_height : float) : AssetView :=
  {| library_ref_ := library_ref_ view;
     shelf_settings_ := shelf_settings_ view;
     catalog_filter_ := catalog_filter_ view;
     evil_C_ := evil_C_ view;
     items_ := items_ view;
     tile_size_ := Some (tile_width, tile_height) |}.

Definition catalog_filter_from_shelf_settings (shelf_settings : option AssetShelfSettings)
    (library : AssetLibrary) : option AssetCatalogFilter :=
  match shelf_settings with
  | None => None
  | Some settings =>
      match active_catalog_path settings with
      | None => None
      | Some path =>
          match find_catalog_by_path (catalog_service library) path with
          | None => None
          | Some active_catalog =>
              Some (create_catalog_filter (catalog_service library)
                      (catalog_catalog_id active_catalog))
          end
      end
  end.

(** ** AssetViewItem *)

Fixpoint draw_context_menus (C : bContext) (asset : AssetHandle)
    (shelves : list AssetShelfType) (column : uiLayout) : outcome uiLayout :=
  match shelves with
  | [] => Done column
  | shelf :: rest =>
      draw <- deref draw_context_menu_null (draw_context_menu shelf) ;;
      draw_context_menus C asset rest (draw C asset column)
  end.

Definition build_context_menu (h : Host) (item : AssetViewItem) (C : bContext)
    (column : uiLayout) : outcome uiLayout :=
  space_link <- deref space_link_null (CTX_wm_space_data C) ;;
  space_type <- deref space_type_null (BKE_spacetype_from_id h (spacetype space_link)) ;;
  let shelves_showing_asset := asset_shelf_types_showing_asset space_type C (asset_ item) in
  draw_context_menus C (asset_ item) shelves_showing_asset column.

(** [view] is the item's [get_view()]. *)
Definition create_drag_controller (view : AssetView) (item : AssetViewItem)
    : option AssetDragController :=
  if allow_asset_drag_ item
  then Some {| drag_view_ := view; drag_asset_ := asset_ item |}
  else None.

(** ** build_asset_view *)

Definition UI_block_add_view (block : uiBlock) (name : string) (view : AssetView)
    : uiBlock * AssetView :=
  ({| views := views block ++ [(name, view)] |}, view).

Definition build_asset_view (h : Host) (layout : uiLayout)
    (library_ref : AssetLibraryReference) (shelf_settings : option AssetShelfSettings)
    (C : bContext) (region : ARegion) : list assetlist_request * outcome uiLayout :=
  ([storage_fetch library_ref C; ensure_previews_job library_ref C],
   match ED_assetlist_library_get_once_available h library_ref with
   | None => Done layout
   | Some library =>
       let tile_width := ED_asset_shelf_default_tile_width h in
       let tile_height := ED_asset_shelf_default_tile_height h in
       settings <- deref shelf_settings_null shelf_settings ;;
       let asset_view := AssetView_new library_ref settings C in
       let asset_view :=
         set_catalog_filter asset_view
           (catalog_filter_from_shelf_settings shelf_settings library) in
       let asset_view := set_tile_size asset_view tile_width tile_height in
       let block := uiLayoutGetBlock layout in
       let '(block, grid_view) :=
         UI_block_add_view block "asset shelf asset view" asset_view in
       build_grid_view h grid_view (v2d region)
         {| layout_block := block; layout_drawn := layout_drawn layout |}
   end).

(** ** AssetDragController *)

Definition get_drag_type (controller : AssetDragController) : eWM_DragDataType :=
  match ED_asset_handle_get_local_id (drag_asset_ controller) with
  | Some _ => WM_DRAG_ID
  | None => WM_DRAG_ASSET
  end.

Definition value_or {A : Type} (o : option A) (default : A) : A :=
  match o with
  | Some a => a
  | None => default
  end.

Definition WM_drag_create_asset_data (asset : AssetHandle) (path : string)
    (import_method : Z) (evil_C : bContext) : wmDragAsset :=
  {| drag_asset := asset;
     drag_path := path;
     drag_import_method := import_method;
     drag_evil_C := evil_C |}.

Definition create_drag_data (controller : AssetDragController) : drag_data :=
  match ED_asset_handle_get_local_id (drag_asset_ controller) with
  | Some local_id => drag_local_id local_id
  | None =>
      let asset_blend_path := ED_asset_handle_get_full_library_path (drag_asset_ controller) in
      let import_method :=
        value_or (ED_asset_handle_get_import_method (drag_asset_ controller))
          ASSET_IMPORT_APPEND_REUSE in
      let asset_view := drag_view_ controller in
      drag_asset_data
        (WM_drag_create_asset_data (drag_asset_ controller) asset_blend_path
           import_method (evil_C_ asset_view))
  end.

(** ** Specification-side descriptions, used to state the results *)

(** An asset is visible: some shelf type shows it and the catalog filter,
    if there is one, contains its catalog. *)
Definition asset_visible (space_type : SpaceType) (view : AssetView) (asset : AssetHandle)
    : bool :=
  negb (is_empty (asset_shelf_types_showing_asset space_type (evil_C_ view) asset))
  && negb (skipped_by_catalog_filter view (ED_asset_handle_get_metadata asset)).

(** The item of a visible asset. *)
Definition item_for (space_type : SpaceType) (view : AssetView) (asset : AssetHandle)
    : AssetViewItem :=
  {| identifier := ED_asset_handle_get_relative_path asset;
     label :=
       if flag_test (display_flag (shelf_settings_ view)) ASSETSHELF_SHOW_NAMES
       then ED_asset_handle_get_name asset
       else "";
     preview_icon_id := ED_asset_handle_get_preview_icon_id asset;
     asset_ := asset;
     allow_asset_drag_ :=
       negb (shelves_is_any_no_asset_drag
               (asset_shelf_types_showing_asset space_type (evil_C_ view) asset)) |}.

(** ** Sample data *)

Definition sample_asset (path name : string) (catalog : Z) (local_id : option ID)
    : AssetHandle :=
  {| handle_metadata := {| catalog_id := catalog |};
     handle_relative_path := path;
     handle_name := name;
     handle_preview_icon_id := 5;
     handle_local_id := local_id;
     handle_full_library_path := ("/lib/assets.blend/" ++ path)%string;
     handle_import_method := None |}.

Definition brush_asset : AssetHandle := sample_asset "Brush/Clay" "Clay" 7 None.
Definition pose_asset : AssetHandle := sample_asset "Action/Wave" "Wave" 8 None.
Definition cube_asset : AssetHandle :=
  sample_asset "Object/Cube" "Cube" 7 (Some {| id_name := "OBCube" |}).

(** A callback that writes the name of its shelf into the column. *)
Definition draws_name (name : string) (C : bContext) (asset : AssetHandle)
    (column : uiLayout) : uiLayout :=
  {| layout_block := layout_block column;
     layout_drawn := layout_drawn column ++ [name] |}.

Definition catalog_is (catalog : Z) (asset : AssetHandle) : bool :=
  catalog_id (ED_asset_handle_get_metadata asset) =? catalog.

Definition brush_shelf : AssetShelfType :=
  {| idname := "BRUSH"; flag := 1;
     poll := Some (fun _ => true);
     asset_poll := Some (catalog_is 7);
     draw_context_menu := Some (draws_name "BRUSH") |}.

Definition any_shelf : AssetShelfType :=
  {| idname := "ANY"; flag := 0;
     poll := Some (fun C => ctx_mode C =? 0);
     asset_poll := None;
     draw_context_menu := Some (draws_name "ANY") |}.

Definition hidden_shelf : AssetShelfType :=
  {| idname := "HIDDEN"; flag := 0;
     poll := Some (fun _ => false);
     asset_poll := None;
     draw_context_menu := None |}.

(** A shelf type registered without any poll function. *)
Definition pollless_shelf : AssetShelfType :=
  {| idname := "POLLLESS"; flag := 0;
     poll := None;
     asset_poll := None;
     draw_context_menu := Some (draws_name "POLLLESS") |}.

Definition sample_space_type : SpaceType :=
  {| spaceid := 1; asset_shelf_types := [brush_shelf; hidden_shelf; any_shelf] |}.

Definition pollless_space_type : SpaceType :=
  {| spaceid := 2; asset_shelf_types := [pollless_shelf] |}.

Definition sample_C : bContext :=
  {| wm_space_data := Some {| spacetype := 1 |}; ctx_mode := 0 |}.

(** A context without an active space. *)
Definition spaceless_C : bContext :=
  {| wm_space_data := None; ctx_mode := 0 |}.

Definition sample_library : AssetLibrary :=
  {| catalog_service :=
       {| find_catalog_by_path :=
            fun path =>
              if (path =? "Brushes")%string
              then Some {| catalog_catalog_id := 7; catalog_path := "Brushes" |}
              else None;
          create_catalog_filter :=
            fun id => {| contains := fun other => other =? id |} |} |}.

Definition sample_ref : AssetLibraryReference :=
  {| ref_type := 1; custom_library_index := -1 |}.

Definition sample_host : Host :=
  {| ED_assetlist_library_get_once_available := fun _ => Some sample_library;
     ED_assetlist_assets := fun _ => [brush_asset; pose_asset; cube_asset];
     BKE_spacetype_from_id :=
       fun id => if id =? 1 then Some sample_space_type else None;
     ED_asset_shelf_default_tile_width := 0x42800000;
     ED_asset_shelf_default_tile_height := 0x42800000;
     build_grid_view := fun _ _ layout => Done layout |}.

(** The host while the library is still loading. *)
Definition loading_host : Host :=
  {| ED_assetlist_library_get_once_available := fun _ => None;
     ED_assetlist_assets := fun _ => [];
     BKE_spacetype_from_id := BKE_spacetype_from_id sample_host;
     ED_asset_shelf_default_tile_width := 0x42800000;
     ED_asset_shelf_default_tile_height := 0x42800000;
     build_grid_view := fun _ _ layout => Done layout |}.

Definition sample_settings : AssetShelfSettings :=
  {| active_catalog_path := Some "Brushes"; display_flag := 1 |}.

Definition sample_view : AssetView := AssetView_new sample_ref sample_settings sample_C.

Definition spaceless_view : AssetView := AssetView_new sample_ref sample_settings spaceless_C.

(** The view with the filter of the active catalog of its settings. *)
Definition filtered_view : AssetView :=
  set_catalog_filter sample_view
    (catalog_filter_from_shelf_settings (Some sample_settings) sample_library).

(** A context whose active space has no registered space type. *)
Definition unregistered_C : bContext :=
  {| wm_space_data := Some {| spacetype := 9 |}; ctx_mode := 0 |}.

Definition brush_item : AssetViewItem :=
  AssetViewItem_new brush_asset "Brush/Clay" "Clay" 5.

Definition empty_layout : uiLayout :=
  {| layout_block := {| views := [] |}; layout_drawn := [] |}.

Definition sample_region : ARegion := {| v2d := {| v2d_flag := 0 |} |}.

(** A shelf type that shows every asset but draws no context menu. *)
Definition menuless_shelf : AssetShelfType :=
  {| idname := "MENULESS"; flag := 0;
     poll := Some (fun _ => true);
     asset_poll := None;
     draw_context_menu := None |}.

Definition menuless_space_type : SpaceType :=
  {| spaceid := 3; asset_shelf_types := [menuless_shelf] |}.

(** A space type whose shelf types all reject a context in mode 1. *)
Definition moody_space_type : SpaceType :=
  {| spaceid := 4; asset_shelf_types := [any_shelf; hidden_shelf] |}.

Definition other_host : Host :=
  {| ED_assetlist_library_get_once_available := fun _ => Some sample_library;
     ED_assetlist_assets := fun _ => [brush_asset; pose_asset; cube_asset];
     BKE_spacetype_from_id :=
       fun id =>
         if id =? 3 then Some menuless_space_type
         else if id =? 4 then Some moody_space_type
         else None;
     ED_asset_shelf_default_tile_width := 0x42800000;
     ED_asset_shelf_default_tile_height := 0x42800000;
     build_grid_view := fun _ _ layout => Done layout |}.

Definition menuless_C : bContext :=
  {| wm_space_data := Some {| spacetype := 3 |}; ctx_mode := 0 |}.

(** A space type whose first shelf type draws no context menu and whose
    second does. *)
Definition mixed_space_type : SpaceType :=
  {| spaceid := 5; asset_shelf_types := [menuless_shelf; any_shelf] |}.

Definition mixed_host : Host :=
  {| ED_assetlist_library_get_once_available := fun _ => Some sample_library;
     ED_assetlist_assets := fun _ => [brush_asset; pose_asset; cube_asset];
     BKE_spacetype_from_id :=
       fun id => if id =? 5 then Some mixed_space_type else None;
     ED_asset_shelf_default_tile_width := 0x42800000;
     ED_asset_shelf_default_tile_height := 0x42800000;
     build_grid_view := fun _ _ layout => Done layout |}.

Definition mixed_C : bContext :=
  {| wm_space_data := Some {| spacetype := 5 |}; ctx_mode := 0 |}.

Definition busy_C : bContext :=
  {| wm_space_data := Some {| spacetype := 4 |}; ctx_mode := 1 |}.

Definition busy_view : AssetView := AssetView_new sample_ref sample_settings busy_C.

(** The filter of the catalog of the brushes. *)
Definition brushes_filter : AssetCatalogFilter :=
  create_catalog_filter (catalog_service sample_library) 7.

(** ** Shelf types showing an asset: the loop is a filter *)

Lemma showing_loop_filter (C : bContext) (asset : AssetHandle)
    (shelf_types_in shelf_types : list AssetShelfType) :
  showing_loop C asset shelf_types_in shelf_types
  = shelf_types ++ filter (shelf_type_appended C asset) shelf_types_in.
Proof.
  revert shelf_types.
  induction shelf_types_in as [|shelf_type rest IH]; intros shelf_types; simpl.
  - now rewrite app_nil_r.
  - destruct (shelf_type_appended C asset shelf_type).
    + rewrite IH, <- app_assoc. reflexivity.
    + apply IH.
Qed.

Lemma showing_asset_filter (space_type : SpaceType) (C : bContext) (asset : AssetHandle) :
  asset_shelf_types_showing_asset space_type C asset
  = filter (shelf_type_appended C asset) (asset_shelf_types space_type).
Proof. unfold asset_shelf_types_showing_asset. now rewrite showing_loop_filter. Qed.

(** A shelf type is appended when its [poll] is present and accepts the
    context, and its [asset_poll] is absent or accepts the asset. *)
Lemma shelf_type_appended_iff (C : bContext) (asset : AssetHandle)
    (shelf_type : AssetShelfType) :
  shelf_type_appended C asset shelf_type = true
  <-> (exists p, poll shelf_type = Some p /\ p C = true)
      /\ (asset_poll shelf_type = None
          \/ exists ap, asset_poll shelf_type = Some ap /\ ap asset = true).
Proof.
  unfold shelf_type_appended.
  destruct (poll shelf_type) as [p|]; simpl.
  - destruct (p C) eqn:HpC; simpl.
    + destruct (asset_poll shelf_type) as [ap|].
      * split.
        -- intros Hap. split; [now exists p | right; now exists ap].
        -- intros [_ [Hnone | [ap' [Heq Hap]]]]; [discriminate | congruence].
      * split; [intros _; split; [now exists p | now left] | reflexivity].
    + split; [discriminate |].
      intros [[p' [Heq Hp']] _]. congruence.
  - split; [discriminate |].
    intros [[p' [Heq _]] _]. discriminate.
Qed.

(** X13.  What the loop of [asset_shelf_types_showing_asset] keeps: a shelf
    type is returned exactly when it is in the space type's list, its
    [poll] is set and accepts the context, and its [asset_poll] is unset
    or accepts the asset. *)
Lemma showing_asset_In_iff (space_type : SpaceType) (C : bContext) (asset : AssetHandle)
    (shelf_type : AssetShelfType) :
  In shelf_type (asset_shelf_types_showing_asset space_type C asset)
  <-> In shelf_type (asset_shelf_types space_type)
      /\ (exists p, poll shelf_type = Some p /\ p C = true)
      /\ (asset_poll shelf_type = None
          \/ exists ap, asset_poll shelf_type = Some ap /\ ap asset = true).
Proof. now rewrite showing_asset_filter, filter_In, shelf_type_appended_iff. Qed.

Lemma is_empty_false_iff {A : Type} (l : list A) : is_empty l = false <-> l <> [].
Proof. destruct l; simpl; split; congruence. Qed.

Lemma shelves_is_any_no_asset_drag_iff (shelves : list AssetShelfType) :
  shelves_is_any_no_asset_drag shelves = true
  <-> exists shelf_type,
        In shelf_type shelves
        /\ Z.land (flag shelf_type) ASSET_SHELF_TYPE_NO_ASSET_DRAG <> 0.
Proof.
  induction shelves as [|shelf_type rest IH]; simpl.
  - split; [discriminate | intros [s [[] _]]].
  - unfold flag_test.
    destruct (Z.eqb_spec (Z.land (flag shelf_type) ASSET_SHELF_TYPE_NO_ASSET_DRAG) 0)
      as [Hz | Hnz]; simpl.
    + rewrite IH. split.
      * intros [s [Hin Hs]]. exists s. auto.
      * intros [s [[Heq | Hin] Hs]]; [subst s; contradiction | now exists s].
    + split; [| reflexivity]. intros _. exists shelf_type. auto.
Qed.

(** ** build_items: what the iteration adds *)

Lemma set_items_same (view : AssetView) : set_items view (items_ view) = view.
Proof. now destruct view. Qed.

Lemma set_items_set_items (view : AssetView) (items items' : list AssetViewItem) :
  set_items (set_items view items) items' = set_items view items'.
Proof. reflexivity. Qed.

(** Adding items changes neither which assets are visible nor their items. *)
Lemma asset_visible_set_items (space_type : SpaceType) (view : AssetView)
    (items : list AssetViewItem) :
  asset_visible space_type (set_items view items) = asset_visible space_type view.
Proof. reflexivity. Qed.

Lemma item_for_set_items (space_type : SpaceType) (view : AssetView)
    (items : list AssetViewItem) :
  item_for space_type (set_items view items) = item_for space_type view.
Proof. reflexivity. Qed.

Lemma build_items_fn_step (space_type : SpaceType) (asset : AssetHandle) (view : AssetView) :
  build_items_fn (Some space_type) asset view
  = Done (true,
          if asset_visible space_type view asset
          then set_items view (items_ view ++ [item_for space_type view asset])
          else view).
Proof.
  unfold build_items_fn, asset_visible, item_for, add_item. simpl.
  destruct (is_empty (asset_shelf_types_showing_asset space_type (evil_C_ view) asset));
    simpl; [reflexivity |].
  destruct (skipped_by_catalog_filter view (ED_asset_handle_get_metadata asset));
    simpl; [reflexivity |].
  destruct (shelves_is_any_no_asset_drag
              (asset_shelf_types_showing_asset space_type (evil_C_ view) asset));
    reflexivity.
Qed.

Lemma iterate_build_items_fn (space_type : SpaceType) (assets : list AssetHandle)
    (view : AssetView) :
  iterate (build_items_fn (Some space_type)) assets view
  = Done (set_items view
            (items_ view
             ++ map (item_for space_type view)
                  (filter (asset_visible space_type view) assets))).
Proof.
  revert view. induction assets as [|asset rest IH]; intros view.
  - simpl. now rewrite app_nil_r, set_items_same.
  - cbn [iterate filter]. rewrite build_items_fn_step. cbn [bind fst snd].
    rewrite IH. destruct (asset_visible space_type view asset).
    + rewrite item_for_set_items, asset_visible_set_items, set_items_set_items.
      cbn [items_ set_items map]. rewrite <- app_assoc. reflexivity.
    + reflexivity.
Qed.

(** Without a space type the function object fails on the first asset. *)
Lemma iterate_build_items_fn_null (assets : list AssetHandle) (view : AssetView) :
  iterate (build_items_fn None) assets view
  = match assets with
    | [] => Done view
    | _ :: _ => NullDeref space_type_null
    end.
Proof. destruct assets; reflexivity. Qed.

Lemma build_items_available (h : Host) (view : AssetView) (library : AssetLibrary)
    (space_link : SpaceLink) (space_type : SpaceType) :
  ED_assetlist_library_get_once_available h (library_ref_ view) = Some library ->
  CTX_wm_space_data (evil_C_ view) = Some space_link ->
  BKE_spacetype_from_id h (spacetype space_link) = Some space_type ->
  build_items h view
  = Done (set_items view
            (items_ view
             ++ map (item_for space_type view)
                  (filter (asset_visible space_type view)
                     (ED_assetlist_assets h (library_ref_ view))))).
Proof.
  intros Hlib Hlink Htype. unfold build_items, ED_assetlist_iterate.
  rewrite Hlib, Hlink. cbn [deref bind]. rewrite Htype.
  apply iterate_build_items_fn.
Qed.

(** Whenever [build_items] completes it has added nothing, or the items
    of the visible assets for the space type that was found. *)
Lemma build_items_done (h : Host) (view view' : AssetView) :
  build_items h view = Done view' ->
  exists added,
    view' = set_items view (items_ view ++ added)
    /\ (added = []
        \/ exists space_link space_type,
             CTX_wm_space_data (evil_C_ view) = Some space_link
             /\ BKE_spacetype_from_id h (spacetype space_link) = Some space_type
             /\ added = map (item_for space_type view)
                          (filter (asset_visible space_type view)
                             (ED_assetlist_assets h (library_ref_ view)))).
Proof.
  unfold build_items, ED_assetlist_iterate.
  destruct (ED_assetlist_library_get_once_available h (library_ref_ view)) as [library|].
  - destruct (CTX_wm_space_data (evil_C_ view)) as [space_link|]; cbn [deref bind];
      [| discriminate].
    destruct (BKE_spacetype_from_id h (spacetype space_link)) as [space_type|] eqn:Htype.
    + rewrite iterate_build_items_fn. intros [= <-].
      eexists. split; [reflexivity |]. right. now exists space_link, space_type.
    + rewrite iterate_build_items_fn_null.
      destruct (ED_assetlist_assets h (library_ref_ view)); [| discriminate].
      intros [= <-]. exists []. rewrite app_nil_r, set_items_same. auto.
  - intros [= <-]. exists []. rewrite app_nil_r, set_items_same. auto.
Qed.

Lemma asset_visible_iff (space_type : SpaceType) (view : AssetView) (asset : AssetHandle) :
  asset_visible space_type view asset = true
  <-> asset_shelf_types_showing_asset space_type (evil_C_ view) asset <> []
      /\ (catalog_filter_ view = None
          \/ exists catalog_filter,
               catalog_filter_ view = Some catalog_filter
               /\ contains catalog_filter
                    (catalog_id (ED_asset_handle_get_metadata asset)) = true).
Proof.
  unfold asset_visible, skipped_by_catalog_filter.
  rewrite andb_true_iff, !negb_true_iff, is_empty_false_iff.
  destruct (catalog_filter_ view) as [catalog_filter|].
  - rewrite negb_false_iff. split.
    + intros [Hshow Hin]. split; [exact Hshow |]. right. now exists catalog_filter.
    + intros [Hshow [Hnone | [f [[= <-] Hin]]]]; [discriminate | auto].
  - split; intros [Hshow _]; auto.
Qed.

Lemma asset_of_item_for (space_type : SpaceType) (view : AssetView)
    (assets : list AssetHandle) :
  map asset_ (map (item_for space_type view) assets) = assets.
Proof. rewrite map_map. cbn [item_for asset_]. apply map_id. Qed.

(** ** build_context_menu: the loop over the shelves *)

Lemma draw_context_menus_fold (C : bContext) (asset : AssetHandle)
    (shelves : list AssetShelfType)
    (draws : list (bContext -> AssetHandle -> uiLayout -> uiLayout))
    (column : uiLayout) :
  map draw_context_menu shelves = map Some draws ->
  draw_context_menus C asset shelves column
  = Done (fold_left (fun column draw => draw C asset column) draws column).
Proof.
  revert draws column.
  induction shelves as [|shelf rest IH]; intros [|draw draws] column; cbn [map];
    try discriminate.
  - reflexivity.
  - intros [= Hdraw Hrest]. cbn [draw_context_menus fold_left].
    rewrite Hdraw. cbn [deref bind]. now apply IH.
Qed.

Lemma draw_context_menus_done_iff (C : bContext) (asset : AssetHandle)
    (shelves : list AssetShelfType) (column : uiLayout) :
  (exists column', draw_context_menus C asset shelves column = Done column')
  <-> Forall (fun shelf => draw_context_menu shelf <> None) shelves.
Proof.
  revert column. induction shelves as [|shelf rest IH]; intros column;
    cbn [draw_context_menus].
  - split; [constructor | now exists column].
  - destruct (draw_context_menu shelf) as [draw|] eqn:Hdraw; cbn [deref bind].
    + rewrite IH. split.
      * intros Hrest. constructor; [congruence | exact Hrest].
      * intros Hall. now inversion Hall.
    + split.
      * intros [column' Hdone]. discriminate.
      * intros Hall. inversion Hall. contradiction.
Qed.

(** ** Results *)

(** C1.  When the library is available and the space type of the active
    space is found, [build_items] visits every asset of the list and adds
    one item per visible asset, in order: an item is added for an asset
    exactly when the shelf types showing it are not empty and the view has
    no catalog filter or the filter contains the asset's catalog id. *)
Theorem build_items_adds_visible_assets (h : Host) (view : AssetView)
    (library : AssetLibrary) (space_link : SpaceLink) (space_type : SpaceType) :
  ED_assetlist_library_get_once_available h (library_ref_ view) = Some library ->
  CTX_wm_space_data (evil_C_ view) = Some space_link ->
  BKE_spacetype_from_id h (spacetype space_link) = Some space_type ->
  exists added,
    build_items h view = Done (set_items view (items_ view ++ added))
    /\ map asset_ added
       = filter (asset_visible space_type view) (ED_assetlist_assets h (library_ref_ view))
    /\ forall asset,
         In asset (ED_assetlist_assets h (library_ref_ view)) ->
         (In asset (map asset_ added)
          <-> asset_shelf_types_showing_asset space_type (evil_C_ view) asset <> []
              /\ (catalog_filter_ view = None
                  \/ exists catalog_filter,
                       catalog_filter_ view = Some catalog_filter
                       /\ contains catalog_filter
                            (catalog_id (ED_asset_handle_get_metadata asset)) = true)).
Proof.
  intros Hlib Hlink Htype.
  exists (map (item_for space_type view)
            (filter (asset_visible space_type view)
               (ED_assetlist_assets h (library_ref_ view)))).
  split; [now apply (build_items_available h view library space_link) |].
  rewrite asset_of_item_for. split; [reflexivity |].
  intros asset Hin. rewrite filter_In, asset_visible_iff. tauto.
Qed.

(** C3 (amended).  The library is tested in [build_items], and the shelf
    settings, the active catalog path and the catalog found for it in
    [catalog_filter_from_shelf_settings], before they are used.
    The space link and the space type are not tested: with the library
    available, [build_items] completes exactly when the context has a
    space link and either there is no asset to visit or the space type is
    found; [build_context_menu] completes exactly when the space link is
    there, the space type is found and every shelf type showing the asset
    has a [draw_context_menu] callback. *)
Theorem null_checks_of_build_items_and_context_menu :
  (forall h view,
     ED_assetlist_library_get_once_available h (library_ref_ view) = None ->
     build_items h view = Done view)
  /\ (forall library, catalog_filter_from_shelf_settings None library = None)
  /\ (forall settings library,
        active_catalog_path settings = None
        \/ (exists path,
              active_catalog_path settings = Some path
              /\ find_catalog_by_path (catalog_service library) path = None) ->
        catalog_filter_from_shelf_settings (Some settings) library = None)
  /\ (forall h view library,
        ED_assetlist_library_get_once_available h (library_ref_ view) = Some library ->
        ((exists view', build_items h view = Done view')
         <-> exists space_link,
               CTX_wm_space_data (evil_C_ view) = Some space_link
               /\ (ED_assetlist_assets h (library_ref_ view) = []
                   \/ exists space_type,
                        BKE_spacetype_from_id h (spacetype space_link) = Some space_type)))
  /\ (forall h item C column,
        (exists column', build_context_menu h item C column = Done column')
        <-> exists space_link space_type,
              CTX_wm_space_data C = Some space_link
              /\ BKE_spacetype_from_id h (spacetype space_link) = Some space_type
              /\ Forall (fun shelf => draw_context_menu shelf <> None)
                   (asset_shelf_types_showing_asset space_type C (asset_ item))).
Proof.
  split; [| split; [| split; [| split]]].
  - intros h view Hlib. unfold build_items. now rewrite Hlib.
  - reflexivity.
  - intros settings library [Hunset | [path [Hpath Hfind]]];
      unfold catalog_filter_from_shelf_settings.
    + now rewrite Hunset.
    + now rewrite Hpath, Hfind.
  - intros h view library Hlib. unfold build_items, ED_assetlist_iterate. rewrite Hlib.
    destruct (CTX_wm_space_data (evil_C_ view)) as [space_link|]; cbn [deref bind].
    + destruct (BKE_spacetype_from_id h (spacetype space_link)) as [space_type|]
        eqn:Htype.
      * rewrite iterate_build_items_fn. split.
        -- intros _. exists space_link. split; [reflexivity |]. right. now exists space_type.
        -- intros _. eexists. reflexivity.
      * rewrite iterate_build_items_fn_null.
        destruct (ED_assetlist_assets h (library_ref_ view)) as [|asset rest].
        -- split; [| intros _; now exists view].
           intros _. exists space_link. auto.
        -- split; [intros [view' Hdone]; discriminate |].
           intros [space_link' [[= <-] [Hnil | [space_type Hsome]]]];
             [discriminate | congruence].
    + split; [intros [view' Hdone]; discriminate |].
      intros [space_link [Hsome _]]. discriminate.
  - intros h item C column. unfold build_context_menu.
    destruct (CTX_wm_space_data C) as [space_link|]; cbn [deref bind].
    + destruct (BKE_spacetype_from_id h (spacetype space_link)) as [space_type|]
        eqn:Htype; cbn [deref bind].
      * rewrite draw_context_menus_done_iff. split.
        -- intros Hall. now exists space_link, space_type.
        -- intros [space_link' [space_type' [[= <-] [Htype' Hall]]]].
           rewrite Htype in Htype'. now injection Htype' as <-.
      * split; [intros [column' Hdone]; discriminate |].
        intros [space_link' [space_type' [[= <-] [Htype' _]]]]. congruence.
    + split; [intros [column' Hdone]; discriminate |].
      intros [space_link [space_type [Hsome _]]]. discriminate.
Qed.

(** C4.  [get_drag_type] answers [WM_DRAG_ID] exactly when the asset has a
    local ID and [WM_DRAG_ASSET] exactly when it has none;
    [create_drag_data] returns that local ID in the first case and, in the
    second, the asset drag data made from the asset, its full library path
    and its import method (the default one when the asset names none); it
    returns a local ID exactly when the drag type is [WM_DRAG_ID]. *)
Theorem drag_type_and_data_agree (controller : AssetDragController) :
  let asset := drag_asset_ controller in
  (get_drag_type controller = WM_DRAG_ID
   <-> exists local_id, ED_asset_handle_get_local_id asset = Some local_id)
  /\ (get_drag_type controller = WM_DRAG_ASSET
      <-> ED_asset_handle_get_local_id asset = None)
  /\ (forall local_id,
        ED_asset_handle_get_local_id asset = Some local_id ->
        create_drag_data controller = drag_local_id local_id)
  /\ (ED_asset_handle_get_local_id asset = None ->
      create_drag_data controller
      = drag_asset_data
          {| drag_asset := asset;
             drag_path := ED_asset_handle_get_full_library_path asset;
             drag_import_method :=
               match ED_asset_handle_get_import_method asset with
               | Some import_method => import_method
               | None => ASSET_IMPORT_APPEND_REUSE
               end;
             drag_evil_C := evil_C_ (drag_view_ controller) |})
  /\ (get_drag_type controller = WM_DRAG_ID
      <-> exists local_id, create_drag_data controller = drag_local_id local_id).
Proof.
  unfold get_drag_type, create_drag_data. cbn zeta.
  destruct (ED_asset_handle_get_local_id (drag_asset_ controller)) as [local_id|].
  - split; [| split; [| split; [| split]]].
    + split; [intros _; now exists local_id | reflexivity].
    + split; discriminate.
    + now intros local_id' [= <-].
    + discriminate.
    + split; [intros _; now exists local_id | reflexivity].
  - split; [| split; [| split; [| split]]].
    + split; [discriminate | intros [local_id Hsome]; discriminate].
    + split; reflexivity.
    + discriminate.
    + reflexivity.
    + split; [discriminate | intros [local_id Hsome]; discriminate].
Qed.

(** C5 (amended).  With the space type of the active space found and a
    [draw_context_menu] callback on every shelf type showing the asset,
    [build_context_menu] calls the callbacks of exactly the shelf types
    returned by [asset_shelf_types_showing_asset], once each and in the
    order of the space type's list: the column is passed through them
    from first to last. *)
Theorem build_context_menu_draws_showing_shelves (h : Host) (item : AssetViewItem)
    (C : bContext) (column : uiLayout) (space_link : SpaceLink) (space_type : SpaceType)
    (draws : list (bContext -> AssetHandle -> uiLayout -> uiLayout)) :
  CTX_wm_space_data C = Some space_link ->
  BKE_spacetype_from_id h (spacetype space_link) = Some space_type ->
  map draw_context_menu (asset_shelf_types_showing_asset space_type C (asset_ item))
  = map Some draws ->
  asset_shelf_types_showing_asset space_type C (asset_ item)
  = filter (shelf_type_appended C (asset_ item)) (asset_shelf_types space_type)
  /\ build_context_menu h item C column
     = Done (fold_left (fun column draw => draw C (asset_ item) column) draws column).
Proof.
  intros Hlink Htype Hdraws. split; [apply showing_asset_filter |].
  unfold build_context_menu. rewrite Hlink. cbn [deref bind].
  rewrite Htype. cbn [deref bind]. now apply draw_context_menus_fold.
Qed.

(** C6.  While the library is not available, [build_items] returns the
    view as it was, without any new item, and [build_asset_view] only asks
    the asset list storage to fetch the library and to load previews: it
    returns the layout, and with it the block and its views, unchanged. *)
Theorem unavailable_library_builds_nothing (h : Host) (view : AssetView) :
  ED_assetlist_library_get_once_available h (library_ref_ view) = None ->
  build_items h view = Done view
  /\ forall layout shelf_settings C region,
       build_asset_view h layout (library_ref_ view) shelf_settings C region
       = ([storage_fetch (library_ref_ view) C; ensure_previews_job (library_ref_ view) C],
          Done layout).
Proof.
  intros Hlib. split.
  - unfold build_items. now rewrite Hlib.
  - intros layout shelf_settings C region. unfold build_asset_view. now rewrite Hlib.
Qed.

(** C7.  [catalog_filter_from_shelf_settings] returns no filter exactly
    when the shelf settings are null, the active catalog path is unset, or
    the library has no catalog with that path.  A view given that result
    has no catalog filter, so the filter skips no asset and an asset is
    visible as soon as some shelf type shows it. *)
Theorem no_catalog_filter_from_shelf_settings (shelf_settings : option AssetShelfSettings)
    (library : AssetLibrary) :
  (catalog_filter_from_shelf_settings shelf_settings library = None
   <-> shelf_settings = None
       \/ exists settings,
            shelf_settings = Some settings
            /\ (active_catalog_path settings = None
                \/ exists path,
                     active_catalog_path settings = Some path
                     /\ find_catalog_by_path (catalog_service library) path = None))
  /\ (catalog_filter_from_shelf_settings shelf_settings library = None ->
      forall view space_type asset,
        let view' :=
          set_catalog_filter view
            (catalog_filter_from_shelf_settings shelf_settings library) in
        catalog_filter_ view' = None
        /\ skipped_by_catalog_filter view' (ED_asset_handle_get_metadata asset) = false
        /\ asset_visible space_type view' asset
           = negb (is_empty
                     (asset_shelf_types_showing_asset space_type (evil_C_ view) asset))).
Proof.
  split.
  - unfold catalog_filter_from_shelf_settings.
    destruct shelf_settings as [settings|]; [| split; auto].
    destruct (active_catalog_path settings) as [path|] eqn:Hpath.
    + destruct (find_catalog_by_path (catalog_service library) path) as [catalog|] eqn:Hfind.
      * split; [discriminate |].
        intros [Hnull | [settings' [[= <-] [Hunset | [path' [Hpath' Hfind']]]]]];
          congruence.
      * split; [| reflexivity]. intros _. right. exists settings.
        split; [reflexivity |]. right. now exists path.
    + split; [| reflexivity]. intros _. right. exists settings. auto.
  - intros Hnone view space_type asset. rewrite Hnone. cbn zeta.
    unfold asset_visible, skipped_by_catalog_filter, set_catalog_filter.
    cbn [catalog_filter_ evil_C_]. rewrite andb_true_r. auto.
Qed.

(** C8.  For every item that [build_items] added, [create_drag_controller]
    returns no controller exactly when some shelf type showing the item's
    asset at build time has the [ASSET_SHELF_TYPE_NO_ASSET_DRAG] flag; if
    none has it, it returns a drag controller for that asset. *)
Theorem drag_disabled_iff_a_shelf_forbids_it (h : Host) (view view' : AssetView)
    (space_link : SpaceLink) (space_type : SpaceType) :
  build_items h view = Done view' ->
  CTX_wm_space_data (evil_C_ view) = Some space_link ->
  BKE_spacetype_from_id h (spacetype space_link) = Some space_type ->
  exists added,
    items_ view' = items_ view ++ added
    /\ Forall
         (fun item =>
            forall owner,
              let forbidden :=
                exists shelf_type,
                  In shelf_type
                    (asset_shelf_types_showing_asset space_type (evil_C_ view) (asset_ item))
                  /\ Z.land (flag shelf_type) ASSET_SHELF_TYPE_NO_ASSET_DRAG <> 0 in
              (create_drag_controller owner item = None <-> forbidden)
              /\ (~ forbidden ->
                  create_drag_controller owner item
                  = Some {| drag_view_ := owner; drag_asset_ := asset_ item |}))
         added.
Proof.
  intros Hdone Hlink Htype.
  destruct (build_items_done h view view' Hdone) as [added [-> Hadded]].
  exists added. split; [reflexivity |].
  destruct Hadded as [-> | [space_link' [space_type' [Hlink' [Htype' ->]]]]];
    [constructor |].
  assert (space_link' = space_link) as -> by congruence.
  assert (space_type' = space_type) as -> by congruence.
  apply Forall_forall. intros item Hitem.
  apply in_map_iff in Hitem. destruct Hitem as [asset [<- _]].
  intros owner. cbn zeta. unfold create_drag_controller. cbn [item_for asset_ allow_asset_drag_].
  rewrite <- shelves_is_any_no_asset_drag_iff.
  destruct (shelves_is_any_no_asset_drag
              (asset_shelf_types_showing_asset space_type (evil_C_ view) asset));
    cbn [negb].
  - split; [tauto |]. intros Hnot. now contradiction Hnot.
  - split; [| reflexivity]. split; discriminate.
Qed.

(** C9.  Every item that [build_items] added has the relative path of its
    asset as identifier; its label is the asset's name when
    [ASSETSHELF_SHOW_NAMES] is set in the display flag of the shelf
    settings, and the empty string when it is not. *)
Theorem added_items_identifier_and_label (h : Host) (view view' : AssetView) :
  build_items h view = Done view' ->
  exists added,
    items_ view' = items_ view ++ added
    /\ Forall
         (fun item =>
            identifier item = ED_asset_handle_get_relative_path (asset_ item)
            /\ (Z.land (display_flag (shelf_settings_ view)) ASSETSHELF_SHOW_NAMES <> 0 ->
                label item = ED_asset_handle_get_name (asset_ item))
            /\ (Z.land (display_flag (shelf_settings_ view)) ASSETSHELF_SHOW_NAMES = 0 ->
                label item = ""))
         added.
Proof.
  intros Hdone.
  destruct (build_items_done h view view' Hdone) as [added [-> Hadded]].
  exists added. split; [reflexivity |].
  destruct Hadded as [-> | [space_link [space_type [_ [_ ->]]]]]; [constructor |].
  apply Forall_forall. intros item Hitem.
  apply in_map_iff in Hitem. destruct Hitem as [asset [<- _]].
  cbn [item_for identifier label asset_]. unfold flag_test.
  destruct (Z.eqb_spec (Z.land (display_flag (shelf_settings_ view)) ASSETSHELF_SHOW_NAMES) 0)
    as [Hzero | Hset]; cbn [negb].
  - split; [reflexivity |]. split; [contradiction | reflexivity].
  - split; [reflexivity |]. split; [reflexivity | contradiction].
Qed.

(** C10.  [set_catalog_filter] makes the view's catalog filter its
    argument, whatever the filter was before, and leaves the library
    reference, the shelf settings and the rest of the view as they were. *)
Theorem set_catalog_filter_sets_only_the_filter (view : AssetView)
    (catalog_filter : option AssetCatalogFilter) :
  catalog_filter_ (set_catalog_filter view catalog_filter) = catalog_filter
  /\ library_ref_ (set_catalog_filter view catalog_filter) = library_ref_ view
  /\ shelf_settings_ (set_catalog_filter view catalog_filter) = shelf_settings_ view
  /\ evil_C_ (set_catalog_filter view catalog_filter) = evil_C_ view
  /\ items_ (set_catalog_filter view catalog_filter) = items_ view
  /\ tile_size_ (set_catalog_filter view catalog_filter) = tile_size_ view.
Proof. destruct catalog_filter; repeat split. Qed.

(** ** Further results *)

Lemma filter_all_true {A : Type} (f : A -> bool) (l : list A) :
  (forall a, In a l -> f a = true) -> filter f l = l.
Proof.
  induction l as [|a l IH]; intros Hall; cbn [filter]; [reflexivity |].
  rewrite (Hall a (or_introl eq_refl)). f_equal. apply IH.
  intros b Hb. apply Hall. now right.
Qed.

Lemma filter_all_false {A : Type} (f : A -> bool) (l : list A) :
  (forall a, In a l -> f a = false) -> filter f l = [].
Proof.
  induction l as [|a l IH]; intros Hall; cbn [filter]; [reflexivity |].
  rewrite (Hall a (or_introl eq_refl)). apply IH.
  intros b Hb. apply Hall. now right.
Qed.

Lemma NoDup_map_filter {A B : Type} (g : A -> B) (f : A -> bool) (l : list A) :
  NoDup (map g l) -> NoDup (map g (filter f l)).
Proof.
  induction l as [|a l IH]; cbn [map filter]; intros Hnodup; [constructor |].
  inversion Hnodup as [|b bs Hnotin Hrest]; subst.
  destruct (f a); cbn [map]; [| now apply IH].
  constructor; [| now apply IH].
  intros Hin. apply Hnotin.
  apply in_map_iff in Hin. destruct Hin as [a' [Heq Hin]].
  apply filter_In in Hin. apply in_map_iff. exists a'. tauto.
Qed.

(** A completed run of the loop of [build_context_menu] found a callback
    on every shelf and passed the column through them. *)
Lemma draw_context_menus_done (C : bContext) (asset : AssetHandle)
    (shelves : list AssetShelfType) (column column' : uiLayout) :
  draw_context_menus C asset shelves column = Done column' ->
  exists draws,
    map draw_context_menu shelves = map Some draws
    /\ column' = fold_left (fun column draw => draw C asset column) draws column.
Proof.
  revert column. induction shelves as [|shelf rest IH]; intros column;
    cbn [draw_context_menus].
  - intros [= <-]. now exists [].
  - destruct (draw_context_menu shelf) as [draw|] eqn:Hdraw; cbn [deref bind];
      [| discriminate].
    intros Hdone. destruct (IH _ Hdone) as [draws [Hmap ->]].
    exists (draw :: draws). cbn [map fold_left]. now rewrite Hdraw, Hmap.
Qed.

(** A failed run met a shelf without callback. *)
Lemma draw_context_menus_failed (C : bContext) (asset : AssetHandle)
    (shelves : list AssetShelfType) (column : uiLayout) (site : null_site) :
  draw_context_menus C asset shelves column = NullDeref site ->
  site = draw_context_menu_null
  /\ exists shelf, In shelf shelves /\ draw_context_menu shelf = None.
Proof.
  revert column. induction shelves as [|shelf rest IH]; intros column;
    cbn [draw_context_menus]; [discriminate |].
  destruct (draw_context_menu shelf) as [draw|] eqn:Hdraw; cbn [deref bind].
  - intros Hfail. destruct (IH _ Hfail) as [-> [shelf' [Hin Hnone]]].
    split; [reflexivity |]. exists shelf'. split; [now right | exact Hnone].
  - intros [= <-]. split; [reflexivity |]. exists shelf. split; [now left | exact Hdraw].
Qed.

(** X1.  The shelf types showing an asset have no duplicates when the
    space type's list has none, and they are never more than the space
    type registers. *)
Theorem showing_asset_keeps_shelf_types_distinct (space_type : SpaceType) (C : bContext)
    (asset : AssetHandle) :
  NoDup (asset_shelf_types space_type) ->
  NoDup (asset_shelf_types_showing_asset space_type C asset)
  /\ (List.length (asset_shelf_types_showing_asset space_type C asset)
      <= List.length (asset_shelf_types space_type))%nat
  /\ incl (asset_shelf_types_showing_asset space_type C asset)
       (asset_shelf_types space_type).
Proof.
  intros Hnodup. rewrite showing_asset_filter. split; [| split].
  - now apply NoDup_filter.
  - apply filter_length_le.
  - apply incl_filter.
Qed.

(** X2.  A completed [build_items] changes nothing of the view but its
    items: the items it found are kept, in place, the new ones come after
    them, and there are at most as many new items as assets in the list. *)
Theorem build_items_only_appends_items (h : Host) (view view' : AssetView) :
  build_items h view = Done view' ->
  library_ref_ view' = library_ref_ view
  /\ shelf_settings_ view' = shelf_settings_ view
  /\ catalog_filter_ view' = catalog_filter_ view
  /\ evil_C_ view' = evil_C_ view
  /\ tile_size_ view' = tile_size_ view
  /\ exists added,
       items_ view' = items_ view ++ added
       /\ (List.length added <= List.length (ED_assetlist_assets h (library_ref_ view)))%nat.
Proof.
  intros Hdone.
  destruct (build_items_done h view view' Hdone) as [added [-> Hadded]].
  repeat (split; [reflexivity |]).
  exists added. split; [reflexivity |].
  destruct Hadded as [-> | [space_link [space_type [_ [_ ->]]]]].
  - apply Nat.le_0_l.
  - rewrite length_map. apply filter_length_le.
Qed.

(** X3.  The identifiers of the added items are pairwise different when
    the relative paths of the assets in the list are. *)
Theorem added_items_have_distinct_identifiers (h : Host) (view view' : AssetView) :
  build_items h view = Done view' ->
  NoDup (map ED_asset_handle_get_relative_path (ED_assetlist_assets h (library_ref_ view))) ->
  exists added,
    items_ view' = items_ view ++ added
    /\ NoDup (map identifier added).
Proof.
  intros Hdone Hpaths.
  destruct (build_items_done h view view' Hdone) as [added [-> Hadded]].
  exists added. split; [reflexivity |].
  destruct Hadded as [-> | [space_link [space_type [_ [_ ->]]]]]; [constructor |].
  rewrite map_map. cbn [item_for identifier].
  now apply NoDup_map_filter.
Qed.

(** With a filter set, the visible assets are those visible without it
    whose catalog the filter contains. *)
Lemma asset_visible_with_filter (space_type : SpaceType) (view : AssetView)
    (catalog_filter : AssetCatalogFilter) (asset : AssetHandle) :
  asset_visible space_type (set_catalog_filter view (Some catalog_filter)) asset
  = asset_visible space_type (set_catalog_filter view None) asset
    && contains catalog_filter (catalog_id (ED_asset_handle_get_metadata asset)).
Proof.
  unfold asset_visible, skipped_by_catalog_filter.
  cbn [catalog_filter_ evil_C_ set_catalog_filter].
  now rewrite negb_involutive, andb_true_r.
Qed.

(** X4.  A catalog filter only removes items: with the filter set, the
    added items are those added without any filter whose asset's catalog
    the filter contains, in the same order and otherwise identical. *)
Theorem catalog_filter_only_removes_items (h : Host) (view : AssetView)
    (catalog_filter : AssetCatalogFilter) (library : AssetLibrary)
    (space_link : SpaceLink) (space_type : SpaceType) :
  ED_assetlist_library_get_once_available h (library_ref_ view) = Some library ->
  CTX_wm_space_data (evil_C_ view) = Some space_link ->
  BKE_spacetype_from_id h (spacetype space_link) = Some space_type ->
  exists added_unfiltered added,
    build_items h (set_catalog_filter view None)
    = Done (set_items (set_catalog_filter view None) (items_ view ++ added_unfiltered))
    /\ build_items h (set_catalog_filter view (Some catalog_filter))
       = Done (set_items (set_catalog_filter view (Some catalog_filter))
                 (items_ view ++ added))
    /\ added
       = filter
           (fun item =>
              contains catalog_filter
                (catalog_id (ED_asset_handle_get_metadata (asset_ item))))
           added_unfiltered.
Proof.
  intros Hlib Hlink Htype.
  eexists. eexists. split; [| split].
  - exact (build_items_available h (set_catalog_filter view None) library space_link
             space_type Hlib Hlink Htype).
  - exact (build_items_available h (set_catalog_filter view (Some catalog_filter))
             library space_link space_type Hlib Hlink Htype).
  - cbn [library_ref_ set_catalog_filter].
    induction (ED_assetlist_assets h (library_ref_ view)) as [|asset rest IH];
      [reflexivity |].
    cbn [filter]. rewrite asset_visible_with_filter.
    destruct (asset_visible space_type (set_catalog_filter view None) asset);
      cbn [andb map filter item_for asset_]; [| exact IH].
    destruct (contains catalog_filter (catalog_id (ED_asset_handle_get_metadata asset)));
      cbn [map]; [f_equal |]; exact IH.
Qed.

(** X5.  Every item that [build_items] added has a context menu: under
    the context of the view, a completed [build_context_menu] of the item
    has called the callback of at least one shelf type, namely of all
    those showing the item's asset, first to last. *)
Theorem added_items_have_a_context_menu (h : Host) (view view' : AssetView)
    (space_link : SpaceLink) (space_type : SpaceType) :
  build_items h view = Done view' ->
  CTX_wm_space_data (evil_C_ view) = Some space_link ->
  BKE_spacetype_from_id h (spacetype space_link) = Some space_type ->
  exists added,
    items_ view' = items_ view ++ added
    /\ Forall
         (fun item =>
            asset_shelf_types_showing_asset space_type (evil_C_ view) (asset_ item) <> []
            /\ forall column column',
                 build_context_menu h item (evil_C_ view) column = Done column' ->
                 exists draw draws,
                   map draw_context_menu
                     (asset_shelf_types_showing_asset space_type (evil_C_ view)
                        (asset_ item))
                   = map Some (draw :: draws)
                   /\ column'
                      = fold_left
                          (fun column draw => draw (evil_C_ view) (asset_ item) column)
                          (draw :: draws) column)
         added.
Proof.
  intros Hdone Hlink Htype.
  destruct (build_items_done h view view' Hdone) as [added [-> Hadded]].
  exists added. split; [reflexivity |].
  destruct Hadded as [-> | [space_link' [space_type' [Hlink' [Htype' ->]]]]];
    [constructor |].
  assert (space_link' = space_link) as -> by congruence.
  assert (space_type' = space_type) as -> by congruence.
  apply Forall_forall. intros item Hitem.
  apply in_map_iff in Hitem. destruct Hitem as [asset [<- Hasset]].
  apply filter_In in Hasset. destruct Hasset as [_ Hvisible].
  apply asset_visible_iff in Hvisible. destruct Hvisible as [Hshowing _].
  cbn [item_for asset_]. split; [exact Hshowing |].
  intros column column'. unfold build_context_menu.
  rewrite Hlink. cbn [deref bind]. rewrite Htype. cbn [deref bind asset_].
  intros Hmenu. destruct (draw_context_menus_done _ _ _ _ _ Hmenu) as [draws [Hmap ->]].
  cbn [item_for asset_] in Hmap |- *.
  destruct draws as [|draw draws].
  - revert Hshowing Hmap.
    destruct (asset_shelf_types_showing_asset space_type (evil_C_ view) asset);
      [congruence | intros _ Hmap; cbn [map] in Hmap; discriminate Hmap].
  - now exists draw, draws.
Qed.

(** X6.  [build_items] fails in two ways only, and only once the library
    is available: on the missing space link of the context, or, with at
    least one asset to visit, on the space type that was not found. *)
Theorem build_items_failure_sites (h : Host) (view : AssetView) (site : null_site) :
  build_items h view = NullDeref site ->
  ED_assetlist_library_get_once_available h (library_ref_ view) <> None
  /\ ((site = space_link_null /\ CTX_wm_space_data (evil_C_ view) = None)
      \/ (site = space_type_null
          /\ ED_assetlist_assets h (library_ref_ view) <> []
          /\ exists space_link,
               CTX_wm_space_data (evil_C_ view) = Some space_link
               /\ BKE_spacetype_from_id h (spacetype space_link) = None)).
Proof.
  unfold build_items, ED_assetlist_iterate.
  destruct (ED_assetlist_library_get_once_available h (library_ref_ view)) as [library|];
    [| discriminate].
  destruct (CTX_wm_space_data (evil_C_ view)) as [space_link|]; cbn [deref bind].
  - destruct (BKE_spacetype_from_id h (spacetype space_link)) as [space_type|] eqn:Htype.
    + rewrite iterate_build_items_fn. discriminate.
    + rewrite iterate_build_items_fn_null.
      destruct (ED_assetlist_assets h (library_ref_ view)); [discriminate |].
      intros [= <-]. split; [discriminate |]. right.
      split; [reflexivity |]. split; [discriminate |]. now exists space_link.
  - intros [= <-]. split; [discriminate |]. now left.
Qed.

(** X7.  [build_context_menu] fails in three ways only: on the missing
    space link, on the space type that was not found, or on a shelf type
    showing the asset that has no [draw_context_menu] callback. *)
Theorem build_context_menu_failure_sites (h : Host) (item : AssetViewItem)
    (C : bContext) (column : uiLayout) (site : null_site) :
  build_context_menu h item C column = NullDeref site ->
  (site = space_link_null /\ CTX_wm_space_data C = None)
  \/ (site = space_type_null
      /\ exists space_link,
           CTX_wm_space_data C = Some space_link
           /\ BKE_spacetype_from_id h (spacetype space_link) = None)
  \/ (site = draw_context_menu_null
      /\ exists space_link space_type shelf,
           CTX_wm_space_data C = Some space_link
           /\ BKE_spacetype_from_id h (spacetype space_link) = Some space_type
           /\ In shelf (asset_shelf_types_showing_asset space_type C (asset_ item))
           /\ draw_context_menu shelf = None).
Proof.
  unfold build_context_menu.
  destruct (CTX_wm_space_data C) as [space_link|]; cbn [deref bind].
  - destruct (BKE_spacetype_from_id h (spacetype space_link)) as [space_type|] eqn:Htype;
      cbn [deref bind].
    + intros Hfail. destruct (draw_context_menus_failed _ _ _ _ _ Hfail)
        as [-> [shelf [Hin Hnone]]].
      right. right. split; [reflexivity |]. now exists space_link, space_type, shelf.
    + intros [= <-]. right. left. split; [reflexivity |]. now exists space_link.
  - intros [= <-]. now left.
Qed.

(** X8.  With the library available and the space type of the active
    space found, a shelf type of that space type whose [poll] accepts the
    context of the view and that has no [asset_poll] shows every asset:
    when the view has no catalog filter, [build_items] completes and adds
    one item per asset of the list, in order. *)
Theorem shelf_type_without_asset_poll_shows_all (h : Host) (view : AssetView)
    (library : AssetLibrary) (space_link : SpaceLink) (space_type : SpaceType)
    (shelf_type : AssetShelfType) (p : bContext -> bool) :
  ED_assetlist_library_get_once_available h (library_ref_ view) = Some library ->
  CTX_wm_space_data (evil_C_ view) = Some space_link ->
  BKE_spacetype_from_id h (spacetype space_link) = Some space_type ->
  catalog_filter_ view = None ->
  In shelf_type (asset_shelf_types space_type) ->
  poll shelf_type = Some p ->
  p (evil_C_ view) = true ->
  asset_poll shelf_type = None ->
  exists added,
    build_items h view = Done (set_items view (items_ view ++ added))
    /\ map asset_ added = ED_assetlist_assets h (library_ref_ view).
Proof.
  intros Hlib Hlink Htype Hfilter Hin Hpoll Haccepts Hasset_poll.
  eexists.
  split; [exact (build_items_available h view library space_link space_type
                   Hlib Hlink Htype) |].
  rewrite asset_of_item_for. apply filter_all_true.
  intros asset _. apply asset_visible_iff. split; [| now left].
  intros Hempty.
  assert (In shelf_type (asset_shelf_types_showing_asset space_type (evil_C_ view) asset))
    as Hshown.
  { rewrite showing_asset_filter. apply filter_In. split; [exact Hin |].
    apply shelf_type_appended_iff. split; [now exists p | now left]. }
  rewrite Hempty in Hshown. contradiction.
Qed.

(** X9.  When the [poll] of every shelf type of the space type rejects the
    context (or the space type registers none), no asset is shown:
    [build_items] returns the view as it was and [build_context_menu]
    returns the column as it was, for any item. *)
Theorem rejecting_context_shows_nothing (h : Host) (view : AssetView)
    (space_link : SpaceLink) (space_type : SpaceType) :
  CTX_wm_space_data (evil_C_ view) = Some space_link ->
  BKE_spacetype_from_id h (spacetype space_link) = Some space_type ->
  Forall (fun shelf_type => exists p, poll shelf_type = Some p /\ p (evil_C_ view) = false)
    (asset_shelf_types space_type) ->
  build_items h view = Done view
  /\ forall item column, build_context_menu h item (evil_C_ view) column = Done column.
Proof.
  intros Hlink Htype Hreject.
  assert (forall asset,
            asset_shelf_types_showing_asset space_type (evil_C_ view) asset = [])
    as Hnone.
  { intros asset. rewrite showing_asset_filter. apply filter_all_false.
    intros shelf_type Hin. rewrite Forall_forall in Hreject.
    destruct (Hreject shelf_type Hin) as [p [Hpoll Hfalse]].
    unfold shelf_type_appended. now rewrite Hpoll, Hfalse. }
  split.
  - unfold build_items, ED_assetlist_iterate.
    destruct (ED_assetlist_library_get_once_available h (library_ref_ view));
      [| reflexivity].
    rewrite Hlink. cbn [deref bind]. rewrite Htype, iterate_build_items_fn.
    rewrite filter_all_false.
    + cbn [map]. now rewrite app_nil_r, set_items_same.
    + intros asset _. unfold asset_visible. now rewrite Hnone.
  - intros item column. unfold build_context_menu.
    rewrite Hlink. cbn [deref bind]. rewrite Htype. cbn [deref bind].
    now rewrite Hnone.
Qed.

(** X10.  With the library available and shelf settings given,
    [build_asset_view] hands the grid view builder the region's 2D view
    and a layout in which the block keeps its views and has one more, last
    and named "asset shelf asset view"; nothing else of the layout differs.
    The new view has no items yet, the given library reference, settings
    and context, the default tile size, and the catalog filter of the
    active catalog of the settings. *)
Theorem build_asset_view_registers_one_view (h : Host) (layout : uiLayout)
    (library_ref : AssetLibraryReference) (settings : AssetShelfSettings)
    (C : bContext) (region : ARegion) (library : AssetLibrary) :
  ED_assetlist_library_get_once_available h library_ref = Some library ->
  exists grid_view layout',
    snd (build_asset_view h layout library_ref (Some settings) C region)
    = build_grid_view h grid_view (v2d region) layout'
    /\ views (layout_block layout')
       = views (layout_block layout) ++ [("asset shelf asset view", grid_view)]
    /\ layout_drawn layout' = layout_drawn layout
    /\ items_ grid_view = []
    /\ library_ref_ grid_view = library_ref
    /\ shelf_settings_ grid_view = settings
    /\ evil_C_ grid_view = C
    /\ tile_size_ grid_view
       = Some (ED_asset_shelf_default_tile_width h, ED_asset_shelf_default_tile_height h)
    /\ catalog_filter_ grid_view
       = catalog_filter_from_shelf_settings (Some settings) library.
Proof.
  intros Hlib. unfold build_asset_view. rewrite Hlib. cbn [snd deref bind].
  eexists. eexists. split; [reflexivity |].
  cbn [layout_block layout_drawn views uiLayoutGetBlock items_ library_ref_
       shelf_settings_ evil_C_ tile_size_ catalog_filter_ set_tile_size
       set_catalog_filter AssetView_new].
  repeat (split; [reflexivity |]).
  now destruct (catalog_filter_from_shelf_settings (Some settings) library).
Qed.

(** X11.  The drag controller of an item drags the item's own asset: it
    exists only for an item whose dragging was not disabled, and the data
    it creates is the local ID of that asset, or asset drag data naming
    that asset, its full library path and the context of the view; the
    drag type it reports matches the kind of data. *)
Theorem drag_controller_drags_the_items_asset (owner : AssetView) (item : AssetViewItem)
    (controller : AssetDragController) :
  create_drag_controller owner item = Some controller ->
  allow_asset_drag_ item = true
  /\ match create_drag_data controller with
     | drag_local_id local_id =>
         ED_asset_handle_get_local_id (asset_ item) = Some local_id
         /\ get_drag_type controller = WM_DRAG_ID
     | drag_asset_data data =>
         ED_asset_handle_get_local_id (asset_ item) = None
         /\ get_drag_type controller = WM_DRAG_ASSET
         /\ drag_asset data = asset_ item
         /\ drag_path data = ED_asset_handle_get_full_library_path (asset_ item)
         /\ drag_evil_C data = evil_C_ owner
     end.
Proof.
  unfold create_drag_controller.
  destruct (allow_asset_drag_ item); [| discriminate].
  intros [= <-]. split; [reflexivity |].
  unfold create_drag_data, get_drag_type. cbn [drag_asset_ drag_view_].
  destruct (ED_asset_handle_get_local_id (asset_ item)); repeat split.
Qed.

(** X12.  What [build_items] adds does not depend on the items already in
    the view: it never looks at them, removes none, and run on a view that
    already holds items it appends the same new items after them. *)
Theorem build_items_ignores_existing_items (h : Host) (view : AssetView)
    (added items : list AssetViewItem) :
  build_items h view = Done (set_items view (items_ view ++ added)) ->
  build_items h (set_items view items) = Done (set_items view (items ++ added)).
Proof.
  assert (forall view',
            Done view' = Done (set_items view (items_ view ++ added)) ->
            items_ view' = items_ view ++ added) as Hitems
    by (intros view' [= ->]; reflexivity).
  assert (items_ view = items_ view ++ added -> added = []) as Hnothing.
  { intros Heq. rewrite <- (app_nil_r (items_ view)) in Heq at 1.
    now apply app_inv_head in Heq. }
  unfold build_items, ED_assetlist_iterate.
  cbn [library_ref_ evil_C_ set_items].
  destruct (ED_assetlist_library_get_once_available h (library_ref_ view)) as [library|].
  - destruct (CTX_wm_space_data (evil_C_ view)) as [space_link|]; cbn [deref bind];
      [| discriminate].
    destruct (BKE_spacetype_from_id h (spacetype space_link)) as [space_type|].
    + rewrite !iterate_build_items_fn. intros Hdone.
      apply Hitems in Hdone. cbn [items_ set_items] in Hdone.
      apply app_inv_head in Hdone. rewrite <- Hdone. reflexivity.
    + rewrite !iterate_build_items_fn_null.
      destruct (ED_assetlist_assets h (library_ref_ view)); [| discriminate].
      intros Hdone. apply Hitems, Hnothing in Hdone. subst added.
      now rewrite app_nil_r.
  - intros Hdone. apply Hitems, Hnothing in Hdone. subst added.
    now rewrite app_nil_r.
Qed.

(** X14.  A filter returned by [catalog_filter_from_shelf_settings] is the
    one the catalog service makes for the id of the catalog it found at
    the active catalog path of the settings. *)
Theorem catalog_filter_is_for_the_active_catalog
    (shelf_settings : option AssetShelfSettings) (library : AssetLibrary)
    (catalog_filter : AssetCatalogFilter) :
  catalog_filter_from_shelf_settings shelf_settings library = Some catalog_filter ->
  exists settings path active_catalog,
    shelf_settings = Some settings
    /\ active_catalog_path settings = Some path
    /\ find_catalog_by_path (catalog_service library) path = Some active_catalog
    /\ catalog_filter
       = create_catalog_filter (catalog_service library) (catalog_catalog_id active_catalog).
Proof.
  unfold catalog_filter_from_shelf_settings.
  destruct shelf_settings as [settings|]; [| discriminate].
  destruct (active_catalog_path settings) as [path|] eqn:Hpath; [| discriminate].
  destruct (find_catalog_by_path (catalog_service library) path) as [active_catalog|]
    eqn:Hfind; [| discriminate].
  intros [= <-]. now exists settings, path, active_catalog.
Qed.

End AssetShelf.

(** ** The results on the sample data *)

(** C2.  A shelf type registered without a [poll] callback, and without an
    [asset_poll] callback either, is in the space type's list but not among
    the shelf types showing the asset: the loop skips a shelf type whose
    [poll] is absent. *)
Theorem showing_asset_skips_shelf_without_poll :
  In pollless_shelf (asset_shelf_types pollless_space_type)
  /\ poll pollless_shelf = None
  /\ asset_poll pollless_shelf = None
  /\ asset_shelf_types_showing_asset pollless_space_type sample_C brush_asset = [].
Proof. repeat split. now left. Qed.

(** C3, as first stated, fails: with the library available, [build_items]
    reads through the missing space link of a context without active
    space, and through the missing space type when the space is not
    registered; so does [build_context_menu]. *)
Lemma build_items_reads_missing_space :
  ED_assetlist_library_get_once_available sample_host (library_ref_ spaceless_view)
  = Some sample_library
  /\ CTX_wm_space_data spaceless_C = None
  /\ build_items 1 1 sample_host spaceless_view = NullDeref space_link_null
  /\ build_context_menu sample_host brush_item spaceless_C empty_layout
     = NullDeref space_link_null
  /\ BKE_spacetype_from_id sample_host 9 = None
  /\ build_items 1 1 sample_host (AssetView_new sample_ref sample_settings unregistered_C)
     = NullDeref space_type_null
  /\ build_context_menu sample_host brush_item unregistered_C empty_layout
     = NullDeref space_type_null.
Proof. repeat split. Qed.

(** C5, as first stated, fails: both shelf types of the space type show
    the asset, the first has no [draw_context_menu] callback, and
    [build_context_menu] stops on it, so that the callback of the second
    is not called either. *)
Lemma build_context_menu_stops_at_missing_callback :
  asset_shelf_types_showing_asset mixed_space_type mixed_C (asset_ brush_item)
  = [menuless_shelf; any_shelf]
  /\ draw_context_menu menuless_shelf = None
  /\ draw_context_menu any_shelf = Some (draws_name "ANY")
  /\ build_context_menu mixed_host brush_item mixed_C empty_layout
     = NullDeref draw_context_menu_null.
Proof. repeat split. Qed.

Lemma build_items_adds_visible_assets_witness :
  exists added,
    build_items 1 1 sample_host filtered_view
    = Done (set_items filtered_view (items_ filtered_view ++ added))
    /\ map asset_ added = [brush_asset; cube_asset].
Proof.
  destruct (build_items_adds_visible_assets 1 1 sample_host filtered_view
              sample_library {| spacetype := 1 |} sample_space_type
              eq_refl eq_refl eq_refl) as [added [Hdone [Hassets _]]].
  exists added. split; [exact Hdone | exact Hassets].
Defined.

Lemma build_context_menu_draws_showing_shelves_witness :
  asset_shelf_types_showing_asset sample_space_type sample_C brush_asset
  = [brush_shelf; any_shelf]
  /\ build_context_menu sample_host brush_item sample_C empty_layout
     = Done {| layout_block := {| views := [] |}; layout_drawn := ["BRUSH"; "ANY"] |}.
Proof.
  exact (build_context_menu_draws_showing_shelves sample_host brush_item sample_C
           empty_layout {| spacetype := 1 |} sample_space_type
           [draws_name "BRUSH"; draws_name "ANY"] eq_refl eq_refl eq_refl).
Defined.

Lemma unavailable_library_builds_nothing_witness :
  build_items 1 1 loading_host sample_view = Done sample_view
  /\ build_asset_view loading_host empty_layout sample_ref (Some sample_settings)
       sample_C sample_region
     = ([storage_fetch sample_ref sample_C; ensure_previews_job sample_ref sample_C],
        Done empty_layout).
Proof.
  destruct (unavailable_library_builds_nothing 1 1 loading_host sample_view eq_refl)
    as [Hitems Hview].
  split; [exact Hitems |].
  exact (Hview empty_layout (Some sample_settings) sample_C sample_region).
Defined.

Lemma drag_disabled_iff_a_shelf_forbids_it_witness :
  exists view' added,
    build_items 1 1 sample_host sample_view = Done view'
    /\ items_ view' = items_ sample_view ++ added
    /\ map (create_drag_controller sample_view) added
       = [None;
          Some {| drag_view_ := sample_view; drag_asset_ := pose_asset |};
          None].
Proof.
  assert (build_items 1 1 sample_host sample_view
          = Done (set_items sample_view
                    (map (item_for 1 1 sample_space_type sample_view)
                       [brush_asset; pose_asset; cube_asset]))) as Hdone
    by reflexivity.
  destruct (drag_disabled_iff_a_shelf_forbids_it 1 1 sample_host sample_view _
              {| spacetype := 1 |} sample_space_type Hdone eq_refl eq_refl)
    as [added [Hitems _]].
  eexists. exists added. split; [exact Hdone |]. split; [exact Hitems |].
  change (items_ sample_view) with (@nil AssetViewItem) in Hitems.
  cbn [app set_items items_] in Hitems. subst added. reflexivity.
Defined.

Lemma added_items_identifier_and_label_witness :
  exists view' added,
    build_items 1 1 sample_host sample_view = Done view'
    /\ items_ view' = items_ sample_view ++ added
    /\ map identifier added = ["Brush/Clay"; "Action/Wave"; "Object/Cube"]
    /\ map label added = ["Clay"; "Wave"; "Cube"].
Proof.
  assert (build_items 1 1 sample_host sample_view
          = Done (set_items sample_view
                    (map (item_for 1 1 sample_space_type sample_view)
                       [brush_asset; pose_asset; cube_asset]))) as Hdone
    by reflexivity.
  destruct (added_items_identifier_and_label 1 1 sample_host sample_view _ Hdone)
    as [added [Hitems _]].
  eexists. exists added. split; [exact Hdone |]. split; [exact Hitems |].
  change (items_ sample_view) with (@nil AssetViewItem) in Hitems.
  cbn [app set_items items_] in Hitems. subst added. split; reflexivity.
Defined.

(** ** The further results on the sample data *)

Lemma showing_asset_keeps_shelf_types_distinct_witness :
  NoDup (asset_shelf_types_showing_asset sample_space_type sample_C brush_asset)
  /\ (List.length (asset_shelf_types_showing_asset sample_space_type sample_C brush_asset)
      <= 3)%nat
  /\ incl (asset_shelf_types_showing_asset sample_space_type sample_C brush_asset)
       [brush_shelf; hidden_shelf; any_shelf].
Proof.
  apply (showing_asset_keeps_shelf_types_distinct sample_space_type sample_C brush_asset).
  repeat constructor; cbn [In]; intuition discriminate.
Defined.

Lemma build_items_only_appends_items_witness :
  exists view',
    build_items 1 1 sample_host filtered_view = Done view'
    /\ catalog_filter_ view' = catalog_filter_ filtered_view
    /\ exists added,
         items_ view' = items_ filtered_view ++ added
         /\ (List.length added <= 3)%nat.
Proof.
  assert (build_items 1 1 sample_host filtered_view
          = Done (set_items filtered_view
                    (map (item_for 1 1 sample_space_type filtered_view)
                       [brush_asset; cube_asset]))) as Hdone
    by reflexivity.
  destruct (build_items_only_appends_items 1 1 sample_host filtered_view _ Hdone)
    as [_ [_ [Hfilter [_ [_ [added [Hitems Hlength]]]]]]].
  eexists. split; [exact Hdone |]. split; [exact Hfilter |].
  exists added. split; [exact Hitems | exact Hlength].
Defined.

Lemma added_items_have_distinct_identifiers_witness :
  exists view' added,
    build_items 1 1 sample_host sample_view = Done view'
    /\ items_ view' = items_ sample_view ++ added
    /\ NoDup (map identifier added).
Proof.
  assert (build_items 1 1 sample_host sample_view
          = Done (set_items sample_view
                    (map (item_for 1 1 sample_space_type sample_view)
                       [brush_asset; pose_asset; cube_asset]))) as Hdone
    by reflexivity.
  assert (NoDup (map ED_asset_handle_get_relative_path
                   (ED_assetlist_assets sample_host (library_ref_ sample_view))))
    as Hpaths
    by (repeat constructor; cbn [In]; intuition discriminate).
  destruct (added_items_have_distinct_identifiers 1 1 sample_host sample_view _
              Hdone Hpaths) as [added [Hitems Hdistinct]].
  eexists. exists added. split; [exact Hdone |]. split; [exact Hitems | exact Hdistinct].
Defined.

Lemma catalog_filter_only_removes_items_witness :
  exists added_unfiltered added,
    build_items 1 1 sample_host (set_catalog_filter sample_view None)
    = Done (set_items (set_catalog_filter sample_view None)
              (items_ sample_view ++ added_unfiltered))
    /\ build_items 1 1 sample_host (set_catalog_filter sample_view (Some brushes_filter))
       = Done (set_items (set_catalog_filter sample_view (Some brushes_filter))
                 (items_ sample_view ++ added))
    /\ added
       = filter
           (fun item =>
              contains brushes_filter
                (catalog_id (ED_asset_handle_get_metadata (asset_ item))))
           added_unfiltered.
Proof.
  exact (catalog_filter_only_removes_items 1 1 sample_host sample_view brushes_filter
           sample_library {| spacetype := 1 |} sample_space_type
           eq_refl eq_refl eq_refl).
Defined.

Lemma added_items_have_a_context_menu_witness :
  exists view' added,
    build_items 1 1 sample_host sample_view = Done view'
    /\ items_ view' = items_ sample_view ++ added
    /\ Forall
         (fun item =>
            asset_shelf_types_showing_asset sample_space_type sample_C (asset_ item) <> [])
         added.
Proof.
  assert (build_items 1 1 sample_host sample_view
          = Done (set_items sample_view
                    (map (item_for 1 1 sample_space_type sample_view)
                       [brush_asset; pose_asset; cube_asset]))) as Hdone
    by reflexivity.
  destruct (added_items_have_a_context_menu 1 1 sample_host sample_view _
              {| spacetype := 1 |} sample_space_type Hdone eq_refl eq_refl)
    as [added [Hitems Hall]].
  eexists. exists added. split; [exact Hdone |]. split; [exact Hitems |].
  apply (Forall_impl _ (fun item Hitem => proj1 Hitem) Hall).
Defined.

Lemma build_items_failure_sites_witness :
  ED_assetlist_library_get_once_available sample_host (library_ref_ spaceless_view) <> None
  /\ ((space_link_null = space_link_null /\ CTX_wm_space_data (evil_C_ spaceless_view) = None)
      \/ (space_link_null = space_type_null
          /\ ED_assetlist_assets sample_host (library_ref_ spaceless_view) <> []
          /\ exists space_link,
               CTX_wm_space_data (evil_C_ spaceless_view) = Some space_link
               /\ BKE_spacetype_from_id sample_host (spacetype space_link) = None)).
Proof.
  exact (build_items_failure_sites 1 1 sample_host spaceless_view space_link_null eq_refl).
Defined.

Lemma build_context_menu_failure_sites_witness :
  build_context_menu other_host brush_item menuless_C empty_layout
  = NullDeref draw_context_menu_null
  /\ exists shelf,
       In shelf (asset_shelf_types_showing_asset menuless_space_type menuless_C brush_asset)
       /\ draw_context_menu shelf = None.
Proof.
  split; [reflexivity |].
  destruct (build_context_menu_failure_sites other_host brush_item menuless_C
              empty_layout draw_context_menu_null eq_refl)
    as [[Hsite _] | [[Hsite _] | [_ [space_link [space_type [shelf
         [Hlink [Htype [Hin Hnone]]]]]]]]]; try discriminate Hsite.
  injection Hlink as <-. injection Htype as <-.
  exists shelf. split; [exact Hin | exact Hnone].
Defined.

Lemma shelf_type_without_asset_poll_shows_all_witness :
  exists added,
    build_items 1 1 sample_host sample_view
    = Done (set_items sample_view (items_ sample_view ++ added))
    /\ map asset_ added = [brush_asset; pose_asset; cube_asset].
Proof.
  exact (shelf_type_without_asset_poll_shows_all 1 1 sample_host sample_view
           sample_library {| spacetype := 1 |} sample_space_type any_shelf
           (fun C => ctx_mode C =? 0)
           eq_refl eq_refl eq_refl eq_refl
           (or_intror (or_intror (or_introl eq_refl))) eq_refl eq_refl eq_refl).
Defined.

Lemma rejecting_context_shows_nothing_witness :
  build_items 1 1 other_host busy_view = Done busy_view
  /\ forall item column, build_context_menu other_host item busy_C column = Done column.
Proof.
  apply (rejecting_context_shows_nothing 1 1 other_host busy_view
           {| spacetype := 4 |} moody_space_type eq_refl eq_refl).
  repeat constructor; eexists; split; reflexivity.
Defined.

Lemma build_asset_view_registers_one_view_witness :
  exists grid_view layout',
    snd (build_asset_view sample_host empty_layout sample_ref (Some sample_settings)
           sample_C sample_region)
    = build_grid_view sample_host grid_view (v2d sample_region) layout'
    /\ views (layout_block layout') = [("asset shelf asset view", grid_view)]
    /\ items_ grid_view = []
    /\ catalog_filter_ grid_view
       = catalog_filter_from_shelf_settings (Some sample_settings) sample_library.
Proof.
  destruct (build_asset_view_registers_one_view sample_host empty_layout sample_ref
              sample_settings sample_C sample_region sample_library eq_refl)
    as [grid_view [layout' [Hbuilt [Hviews [_ [Hitems [_ [_ [_ [_ Hfilter]]]]]]]]]].
  exists grid_view, layout'.
  split; [exact Hbuilt |]. split; [exact Hviews |]. split; [exact Hitems | exact Hfilter].
Defined.

Lemma drag_controller_drags_the_items_asset_witness :
  allow_asset_drag_ brush_item = true
  /\ ED_asset_handle_get_local_id (asset_ brush_item) = None
  /\ get_drag_type {| drag_view_ := sample_view; drag_asset_ := brush_asset |}
     = WM_DRAG_ASSET.
Proof.
  destruct (drag_controller_drags_the_items_asset 3 sample_view brush_item
              {| drag_view_ := sample_view; drag_asset_ := brush_asset |} eq_refl)
    as [Hallowed [Hlocal [Htype _]]].
  split; [exact Hallowed |]. split; [exact Hlocal | exact Htype].
Defined.

Lemma build_items_ignores_existing_items_witness :
  build_items 1 1 sample_host (set_items sample_view [brush_item])
  = Done (set_items sample_view
            ([brush_item]
             ++ map (item_for 1 1 sample_space_type sample_view)
                  [brush_asset; pose_asset; cube_asset])).
Proof.
  exact (build_items_ignores_existing_items 1 1 sample_host sample_view
           (map (item_for 1 1 sample_space_type sample_view)
              [brush_asset; pose_asset; cube_asset])
           [brush_item] eq_refl).
Defined.

Lemma catalog_filter_is_for_the_active_catalog_witness :
  exists settings path active_catalog,
    Some sample_settings = Some settings
    /\ active_catalog_path settings = Some path
    /\ find_catalog_by_path (catalog_service sample_library) path = Some active_catalog
    /\ brushes_filter
       = create_catalog_filter (catalog_service sample_library)
           (catalog_catalog_id active_catalog).
Proof.
  exact (catalog_filter_is_for_the_active_catalog (Some sample_settings) sample_library
           brushes_filter eq_refl).
Defined.
